(** * template_water_heater: the [ComplexWaterHeater] adapter

    A shallow embedding of
    [custom_components/template_water_heater/water_heater.py].

    The adapter wraps a switch entity and a temperature sensor entity of
    the host platform.  The Python object is a record; its methods are
    computations in a small state-and-exception monad whose state is the
    object together with the chronological list of effects it has had on
    the host (log entries, service calls, state writes, subscriptions).
    The host itself ([hass]) is read-only for the adapter and is passed
    explicitly. *)

From Stdlib Require Import ZArith Bool List Ascii String.
From Stdlib Require Import Floats.SpecFloat.
From stdpp Require Import base option list strings gmap.

Local Open Scope string_scope.
Local Open Scope list_scope.

(** ** Constants of the host platform *)

(** [homeassistant.const] and [homeassistant.components.water_heater]. *)
Module Const.
Definition ATTR_ENTITY_ID : string := "entity_id".
Definition EVENT_HOMEASSISTANT_START : string := "homeassistant_start".
Definition SERVICE_TURN_OFF : string := "turn_off".
Definition SERVICE_TURN_ON : string := "turn_on".
Definition STATE_OFF : string := "off".
Definition STATE_ON : string := "on".
Definition STATE_UNAVAILABLE : string := "unavailable".
Definition STATE_UNKNOWN : string := "unknown".
Definition STATE_ELECTRIC : string := "electric".
End Const.
Export Const.

(** ** Python values and exceptions *)

(** A Python [float] is an IEEE-754 binary64 value. *)
Abbreviation pyfloat := spec_float.

(** [math.isnan] *)
Definition isnan (x : pyfloat) : bool :=
  match x with S754_nan => true | _ => false end.

(** [math.isinf] *)
Definition isinf (x : pyfloat) : bool :=
  match x with S754_infinity _ => true | _ => false end.

Inductive Exception : Type :=
| ValueError (msg : string)
| AttributeError (name : string)
| ServiceError (msg : string).

Inductive Result (A : Type) : Type :=
| Ok (a : A)
| Raise (e : Exception).
Arguments Ok {A} a.
Arguments Raise {A} e.

(** [x in (a, b, ...)] on strings. *)
Definition str_in (x : string) (xs : list string) : bool :=
  existsb (String.eqb x) xs.
Arguments str_in : simpl never.

(** [d.get(k)] on a dict whose values may be [None]. *)
Definition dict_get {V : Type} (d : gmap string (option V)) (k : string)
  : option V :=
  match d !! k with
  | Some v => v
  | None => None
  end.

(** ** The host platform as the adapter sees it *)

(** [homeassistant.core.State]; only [.state] is read. *)
Record State : Type := mkState { state : string }.

(** [homeassistant.core.Event]; only [.data] is read. *)
Record Event : Type := mkEvent { data : gmap string (option State) }.

(** [homeassistant.core.Context], opaque to the adapter. *)
Record Context : Type := mkContext { context_id : string }.

(** [homeassistant.core.CoreState] *)
Inductive CoreState : Type :=
| not_running | starting | running | stopping | final_write | stopped.

Definition is_running (s : CoreState) : bool :=
  match s with running => true | _ => false end.

(** The arguments of one [hass.services.async_call]. *)
Record ServiceCall : Type := mkServiceCall {
  domain : string;
  service : string;
  service_data : gmap string string;
  blocking : bool;
  context : option Context;
}.

(** The three callbacks the adapter hands to the host. *)
Inductive Callback : Type :=
| cb_async_sensor_changed
| cb_async_startup
| cb_async_state_changed_listener.

(** What the adapter does to the host, in the order it does it. *)
Inductive Effect : Type :=
| LoggerError (fmt : string) (arg : string)
| AsyncCall (c : ServiceCall)
| AsyncWriteHaState
| AddExecutorJobDispatcherSend (signal : string)
| OnRemoveTrackStateChangeEvent (entity_ids : list string) (action : Callback)
| BusListenOnce (event_type : string) (action : Callback).

(** [hass]: the core state, the state machine, and the outcome of a
    blocking service call ([None] when the call completes, [Some e] when
    it raises [e]). *)
Record HomeAssistant : Type := mkHass {
  hass_state : CoreState;
  hass_states : gmap string State;
  hass_services : ServiceCall -> option Exception;
}.

(** ** The adapter object *)

(** The first seven fields are the ones [__init__] assigns.  The last
    three are attributes of the host's entity base class that the
    adapter reads or assigns later: [_attr_available] (class default
    [True]), [_attr_is_on] (assigned only by the switch listener,
    [None] until then) and [_context] (default [None]). *)
Record ComplexWaterHeater : Type := mkComplexWaterHeater {
  _attr_name : string;
  _attr_unique_id : option string;
  _attr_min_temp : Z;
  _attr_max_temp : Z;
  _switch_entity_id : string;
  _temperature_entity_id : string;
  _cur_temp : option pyfloat;
  _attr_available : bool;
  _attr_is_on : option bool;
  _context : option Context;
}.

Definition set_cur_temp (v : option pyfloat) (self : ComplexWaterHeater) :=
  {| _attr_name := _attr_name self;
     _attr_unique_id := _attr_unique_id self;
     _attr_min_temp := _attr_min_temp self;
     _attr_max_temp := _attr_max_temp self;
     _switch_entity_id := _switch_entity_id self;
     _temperature_entity_id := _temperature_entity_id self;
     _cur_temp := v;
     _attr_available := _attr_available self;
     _attr_is_on := _attr_is_on self;
     _context := _context self |}.

Definition set_attr_available (v : bool) (self : ComplexWaterHeater) :=
  {| _attr_name := _attr_name self;
     _attr_unique_id := _attr_unique_id self;
     _attr_min_temp := _attr_min_temp self;
     _attr_max_temp := _attr_max_temp self;
     _switch_entity_id := _switch_entity_id self;
     _temperature_entity_id := _temperature_entity_id self;
     _cur_temp := _cur_temp self;
     _attr_available := v;
     _attr_is_on := _attr_is_on self;
     _context := _context self |}.

Definition set_attr_is_on (v : option bool) (self : ComplexWaterHeater) :=
  {| _attr_name := _attr_name self;
     _attr_unique_id := _attr_unique_id self;
     _attr_min_temp := _attr_min_temp self;
     _attr_max_temp := _attr_max_temp self;
     _switch_entity_id := _switch_entity_id self;
     _temperature_entity_id := _temperature_entity_id self;
     _cur_temp := _cur_temp self;
     _attr_available := _attr_available self;
     _attr_is_on := v;
     _context := _context self |}.

(** [ComplexWaterHeater.__init__] *)
Definition __init__ (name switch_entity_id temperature_entity_id : string)
    (min_temp max_temp : Z) (unique_id : option string)
  : ComplexWaterHeater :=
  {| _attr_name := name;
     _attr_unique_id := unique_id;
     _attr_min_temp := min_temp;
     _attr_max_temp := max_temp;
     _switch_entity_id := switch_entity_id;
     _temperature_entity_id := temperature_entity_id;
     _cur_temp := None;
     _attr_available := true;
     _attr_is_on := None;
     _context := None |}.

(** ** The monad of method bodies *)

(** The object and the effects so far, oldest first. *)
Record Sys : Type := mkSys {
  obj : ComplexWaterHeater;
  out : list Effect;
}.

Definition M (A : Type) : Type := Sys -> Result A * Sys.

Definition ret {A} (a : A) : M A := fun s => (Ok a, s).

Definition bind {A B} (m : M A) (k : A -> M B) : M B :=
  fun s =>
    match m s with
    | (Ok a, s') => k a s'
    | (Raise e, s') => (Raise e, s')
    end.

Definition raise {A} (e : Exception) : M A := fun s => (Raise e, s).

(** [try: body except ValueError as ex: handler(str(ex))]; any other
    exception propagates. *)
Definition try_except_ValueError (body : M unit) (handler : string -> M unit)
  : M unit :=
  fun s =>
    match body s with
    | (Raise (ValueError msg), s') => handler msg s'
    | r => r
    end.

Definition get_self : M ComplexWaterHeater := fun s => (Ok (obj s), s).

Definition update_self (f : ComplexWaterHeater -> ComplexWaterHeater) : M unit :=
  fun s => (Ok tt, {| obj := f (obj s); out := out s |}).

Definition emit (e : Effect) : M unit :=
  fun s => (Ok tt, {| obj := obj s; out := out s ++ [e] |}).

Notation "x <- m ;; k" := (bind m (fun x => k))
  (at level 100, m at next level, right associativity).
Notation "m ;;; k" := (bind m (fun _ => k))
  (at level 100, right associativity).

(** Run a computation on an object with no effects yet. *)
Definition run {A} (m : M A) (self : ComplexWaterHeater) : Result A * Sys :=
  m {| obj := self; out := [] |}.

(** The service calls among a list of effects. *)
Definition service_calls (es : list Effect) : list ServiceCall :=
  omap (fun e => match e with AsyncCall c => Some c | _ => None end) es.

(** The error log entries among a list of effects. *)
Definition error_logs (es : list Effect) : list (string * string) :=
  omap (fun e => match e with LoggerError f a => Some (f, a) | _ => None end) es.

(** The number of state writes among a list of effects. *)
Definition state_writes (es : list Effect) : nat :=
  length (omap (fun e => match e with AsyncWriteHaState => Some tt | _ => None end) es).

(** ** An executable fragment of the builtin [float]

    The methods below take Python's builtin [float] (string to float
    conversion) as a parameter.  For running them on concrete inputs
    this fragment of the builtin is used: the literals [nan], [inf] and
    [-inf], and unsigned decimal integer literals; every other string is
    refused with the builtin's [ValueError] message. *)

Definition digit_of_ascii (c : ascii) : option Z :=
  let n := Z.of_N (N_of_ascii c) in
  if (48 <=? n)%Z && (n <=? 57)%Z then Some (n - 48)%Z else None.

Fixpoint decimal_value (s : string) (acc : Z) : option Z :=
  match s with
  | EmptyString => Some acc
  | String c s' =>
      match digit_of_ascii c with
      | Some d => decimal_value s' (10 * acc + d)%Z
      | None => None
      end
  end.

(** The binary64 value nearest to an integer. *)
Definition binary64_of_Z (n : Z) : pyfloat :=
  binary_normalize 53 1024 n 0 false.

Definition float_fragment (s : string) : string + pyfloat :=
  if String.eqb s "nan" then inr S754_nan
  else if String.eqb s "inf" then inr (S754_infinity false)
  else if String.eqb s "-inf" then inr (S754_infinity true)
  else
    match s, decimal_value s 0 with
    | String _ _, Some n => inr (binary64_of_Z n)
    | _, _ => inl ("could not convert string to float: '" +:+ s +:+ "'")
    end.

(** ** The adapter's methods *)

Section Adapter.

(** Python's builtin [float] on a string: the converted value, or the
    message of the [ValueError] it raises. *)
Variable float : string -> string + pyfloat.

(** [ROOM_TEMP], [BOIL_TEMP] and [SWITCH_DOMAIN] of the package's
    [const] module. *)
Variables ROOM_TEMP BOIL_TEMP : Z.
Variable SWITCH_DOMAIN : string.

(** [float(s)] as a computation. *)
Definition call_float (s : string) : M pyfloat :=
  match float s with
  | inr v => ret v
  | inl msg => raise (ValueError msg)
  end.

(** *** Properties *)

Definition min_temp (self : ComplexWaterHeater) : Z := ROOM_TEMP.

Definition max_temp (self : ComplexWaterHeater) : Z := BOIL_TEMP.

Definition current_temperature (self : ComplexWaterHeater) : option pyfloat :=
  _cur_temp self.

(** Reading [self._attr_is_on]: an [AttributeError] while the switch
    listener has not assigned it. *)
Definition getattr_attr_is_on (self : ComplexWaterHeater) : Result bool :=
  match _attr_is_on self with
  | Some b => Ok b
  | None => Raise (AttributeError "_attr_is_on")
  end.

Definition target_temperature (self : ComplexWaterHeater) : Result Z :=
  match getattr_attr_is_on self with
  | Ok is_on => Ok (if is_on then max_temp self else min_temp self)
  | Raise e => Raise e
  end.

Definition current_operation (self : ComplexWaterHeater) : Result string :=
  match getattr_attr_is_on self with
  | Ok is_on => Ok (if is_on then STATE_ELECTRIC else STATE_OFF)
  | Raise e => Raise e
  end.

(** *** Sensor handling *)

Definition _async_update_temp (st : State) : M unit :=
  try_except_ValueError
    (cur_temp <- call_float (state st) ;;
     if isnan cur_temp || isinf cur_temp
     then raise (ValueError ("Sensor has illegal state " +:+ state st))
     else update_self (set_cur_temp (Some cur_temp)))
    (fun ex => emit (LoggerError "Unable to update from sensor: %s" ex)).

Definition _async_sensor_changed (event : Event) : M unit :=
  match dict_get (data event) "new_state" with
  | None => ret tt
  | Some new_state =>
      if str_in (state new_state) [STATE_UNAVAILABLE; STATE_UNKNOWN]
      then ret tt
      else _async_update_temp new_state ;;; emit AsyncWriteHaState
  end.

(** *** Commands *)

(** [await hass.services.async_call(...)]: the call is issued, then
    completes or raises as the host decides. *)
Definition services_async_call (hass : HomeAssistant) (c : ServiceCall)
  : M unit :=
  emit (AsyncCall c) ;;;
  match hass_services hass c with
  | None => ret tt
  | Some e => raise e
  end.

Definition async_turn_on (hass : HomeAssistant) : M unit :=
  self <- get_self ;;
  services_async_call hass
    {| domain := SWITCH_DOMAIN;
       service := SERVICE_TURN_ON;
       service_data := {[ ATTR_ENTITY_ID := _switch_entity_id self ]};
       blocking := true;
       context := _context self |}.

Definition async_turn_off (hass : HomeAssistant) : M unit :=
  self <- get_self ;;
  services_async_call hass
    {| domain := SWITCH_DOMAIN;
       service := SERVICE_TURN_OFF;
       service_data := {[ ATTR_ENTITY_ID := _switch_entity_id self ]};
       blocking := true;
       context := _context self |}.

Definition async_set_operation_mode (hass : HomeAssistant)
    (operation_mode : string) : M unit :=
  (if String.eqb operation_mode STATE_OFF
   then async_turn_off hass
   else async_turn_on hass) ;;;
  emit (AddExecutorJobDispatcherSend "update").

(** *** Registration *)

Definition _async_startup (hass : HomeAssistant) : M unit :=
  self <- get_self ;;
  match hass_states hass !! _temperature_entity_id self with
  | Some sensor_state =>
      if negb (str_in (state sensor_state) [STATE_UNAVAILABLE; STATE_UNKNOWN])
      then _async_update_temp sensor_state ;;; emit AsyncWriteHaState
      else ret tt
  | None => ret tt
  end.

Definition async_state_changed_listener (hass : HomeAssistant) : M unit :=
  self <- get_self ;;
  match hass_states hass !! _switch_entity_id self with
  | None => update_self (set_attr_available false)
  | Some st =>
      if String.eqb (state st) STATE_UNAVAILABLE
      then update_self (set_attr_available false)
      else
        update_self (set_attr_available true) ;;;
        update_self (set_attr_is_on (Some (String.eqb (state st) STATE_ON))) ;;;
        emit AsyncWriteHaState
  end.

Definition async_added_to_hass (hass : HomeAssistant) : M unit :=
  self <- get_self ;;
  emit (OnRemoveTrackStateChangeEvent
          [_temperature_entity_id self] cb_async_sensor_changed) ;;;
  (if is_running (hass_state hass)
   then _async_startup hass
   else emit (BusListenOnce EVENT_HOMEASSISTANT_START cb_async_startup)) ;;;
  emit (OnRemoveTrackStateChangeEvent
          [_switch_entity_id self] cb_async_state_changed_listener) ;;;
  async_state_changed_listener hass.

(** *** The host delivering notifications *)

(** One delivery: the host runs the callback to its end and keeps
    what it did. *)
Definition deliver {A} (callback : A -> M unit) (s : Sys) (a : A) : Sys :=
  snd (callback a s).

(** A sequence of sensor state-change events, oldest first. *)
Definition sensor_events (evs : list Event) (s : Sys) : Sys :=
  foldl (deliver _async_sensor_changed) s evs.

(** A sequence of switch state-change notifications, oldest first;
    each is given as the host at the time of its delivery. *)
Definition switch_notifications (hs : list HomeAssistant) (s : Sys) : Sys :=
  foldl (deliver async_state_changed_listener) s hs.

(** *** Readings, in the words of the specification *)

(** The value of a state string that parses as a finite float. *)
Definition finite_float (s : string) : option pyfloat :=
  match float s with
  | inr v => if isnan v || isinf v then None else Some v
  | inl _ => None
  end.

(** The valid numeric reading an event carries, if any. *)
Definition valid_reading (ev : Event) : option pyfloat :=
  match dict_get (data ev) "new_state" with
  | Some st => finite_float (state st)
  | None => None
  end.

(** The most recent valid reading of a sequence of events. *)
Definition most_recent_valid (evs : list Event) : option pyfloat :=
  last (omap valid_reading evs).

(** The argument of the error log entry for a state string that is not
    a finite float: the builtin's message, or the method's own. *)
Definition value_error_message (s : string) : string :=
  match float s with
  | inl msg => msg
  | inr _ => "Sensor has illegal state " +:+ s
  end.

(** Whether the switch's published state makes the adapter available. *)
Definition switch_available (published : option State) : bool :=
  match published with
  | None => false
  | Some st => negb (String.eqb (state st) STATE_UNAVAILABLE)
  end.

End Adapter.

(** ** Platform setup *)

(** An entry of the host's entity registry; only [.unique_id] is read. *)
Record RegistryEntry : Type := mkRegistryEntry { unique_id : string }.

(** The platform configuration as [PLATFORM_SCHEMA] hands it over: the
    schema requires or defaults each of the five keys [name], [switch],
    [temperature], [min_temperature] and [max_temperature], the first
    three to strings and the last two to integers. *)
Record ConfigType : Type := mkConfig {
  conf_name : string;
  conf_switch : string;
  conf_temperature : string;
  conf_min_temperature : Z;
  conf_max_temperature : Z;
}.

(** [async_setup_platform]: the list it passes to [async_add_entities].
    [registry] is [er.async_get(hass)], looked up by entity id. *)
Definition async_setup_platform (registry : gmap string RegistryEntry)
    (config : ConfigType) : list ComplexWaterHeater :=
  let wrapped_switch := registry !! conf_switch config in
  let unique_id :=
    match wrapped_switch with
    | Some entry => Some (unique_id entry +:+ "_water_heater")
    | None => None
    end in
  [ __init__ (conf_name config) (conf_switch config) (conf_temperature config)
      (conf_min_temperature config) (conf_max_temperature config) unique_id ].

(** ** The adapter under the host's calls *)

(** The fields [__init__] assigns from its arguments, and the context. *)
Definition same_configuration (a b : ComplexWaterHeater) : Prop :=
  _attr_name a = _attr_name b /\
  _attr_unique_id a = _attr_unique_id b /\
  _attr_min_temp a = _attr_min_temp b /\
  _attr_max_temp a = _attr_max_temp b /\
  _switch_entity_id a = _switch_entity_id b /\
  _temperature_entity_id a = _temperature_entity_id b /\
  _context a = _context b.

(** A stored temperature is unset or a finite float. *)
Definition finite_or_unset (t : option pyfloat) : bool :=
  match t with
  | Some v => negb (isnan v || isinf v)
  | None => true
  end.

(** The state-change subscriptions among a list of effects. *)
Definition subscriptions (es : list Effect) : list (list string * Callback) :=
  omap (fun e => match e with
                 | OnRemoveTrackStateChangeEvent ids cb => Some (ids, cb)
                 | _ => None
                 end) es.

(** The one-time bus listeners among a list of effects. *)
Definition bus_listeners (es : list Effect) : list (string * Callback) :=
  omap (fun e => match e with
                 | BusListenOnce ev cb => Some (ev, cb)
                 | _ => None
                 end) es.

(** The dispatcher signals among a list of effects. *)
Definition dispatcher_signals (es : list Effect) : list string :=
  omap (fun e => match e with
                 | AddExecutorJobDispatcherSend sig => Some sig
                 | _ => None
                 end) es.

(** The entry points through which the host drives the adapter, each
    with the host as it is at the time of the call. *)
Inductive Call : Type :=
| call_async_added_to_hass (hass : HomeAssistant)
| call_async_startup (hass : HomeAssistant)
| call_async_sensor_changed (event : Event)
| call_async_state_changed_listener (hass : HomeAssistant)
| call_async_turn_on (hass : HomeAssistant)
| call_async_turn_off (hass : HomeAssistant)
| call_async_set_operation_mode (hass : HomeAssistant) (operation_mode : string).

(** The three commands, as opposed to the callbacks. *)
Definition is_command (c : Call) : bool :=
  match c with
  | call_async_turn_on _ | call_async_turn_off _
  | call_async_set_operation_mode _ _ => true
  | _ => false
  end.

(** The calls that run the switch listener. *)
Definition runs_listener (c : Call) : bool :=
  match c with
  | call_async_added_to_hass _ | call_async_state_changed_listener _ => true
  | _ => false
  end.

(** The calls that can read the sensor. *)
Definition reads_sensor (c : Call) : bool :=
  match c with
  | call_async_added_to_hass _ | call_async_startup _
  | call_async_sensor_changed _ => true
  | _ => false
  end.

Section Host.

Variable float : string -> string + pyfloat.
Variable SWITCH_DOMAIN : string.

Definition perform (c : Call) : M unit :=
  match c with
  | call_async_added_to_hass hass => async_added_to_hass float hass
  | call_async_startup hass => _async_startup float hass
  | call_async_sensor_changed event => _async_sensor_changed float event
  | call_async_state_changed_listener hass => async_state_changed_listener hass
  | call_async_turn_on hass => async_turn_on SWITCH_DOMAIN hass
  | call_async_turn_off hass => async_turn_off SWITCH_DOMAIN hass
  | call_async_set_operation_mode hass operation_mode =>
      async_set_operation_mode SWITCH_DOMAIN hass operation_mode
  end.

(** A sequence of calls, oldest first; the host keeps what each call
    did, whether it returned or raised. *)
Definition history (cs : list Call) (s : Sys) : Sys :=
  foldl (deliver perform) s cs.

(** The finite reading the sensor entity holds in the state machine. *)
Definition held_reading (sensor_entity_id : string) (hass : HomeAssistant)
  : option pyfloat :=
  match hass_states hass !! sensor_entity_id with
  | Some st => finite_float float (state st)
  | None => None
  end.

(** The valid reading a call brings to the adapter, if any. *)
Definition call_reading (sensor_entity_id : string) (c : Call)
  : option pyfloat :=
  match c with
  | call_async_added_to_hass hass =>
      if is_running (hass_state hass)
      then held_reading sensor_entity_id hass
      else None
  | call_async_startup hass => held_reading sensor_entity_id hass
  | call_async_sensor_changed event => valid_reading float event
  | _ => None
  end.

(** What [_async_update_temp] stores for a state that its caller lets
    through: nothing for a missing, "unavailable" or "unknown" state. *)
Definition guarded_reading (published : option State) : option pyfloat :=
  match published with
  | Some st =>
      if str_in (state st) [STATE_UNAVAILABLE; STATE_UNKNOWN] then None
      else finite_float float (state st)
  | None => None
  end.

(** The temperature a call stores, if it stores one. *)
Definition stored_by (sensor_entity_id : string) (c : Call) : option pyfloat :=
  match c with
  | call_async_added_to_hass hass =>
      if is_running (hass_state hass)
      then guarded_reading (hass_states hass !! sensor_entity_id)
      else None
  | call_async_startup hass =>
      guarded_reading (hass_states hass !! sensor_entity_id)
  | call_async_sensor_changed event =>
      guarded_reading (dict_get (data event) "new_state")
  | _ => None
  end.


(** A service call to the wrapped switch: one of the two services of
    the switch domain, blocking, on the configured entity id. *)
Definition switch_call (self : ComplexWaterHeater) (c : ServiceCall) : Prop :=
  domain c = SWITCH_DOMAIN /\
  (service c = SERVICE_TURN_ON \/ service c = SERVICE_TURN_OFF) /\
  service_data c = {[ ATTR_ENTITY_ID := _switch_entity_id self ]} /\
  blocking c = true /\
  context c = _context self.

End Host.

(** ** Sample inputs *)

(** A heater configured with bounds that differ from the package's
    constants by five degrees. *)
Definition sample_heater (ROOM_TEMP BOIL_TEMP : Z) : ComplexWaterHeater :=
  __init__ "Complex Water Heater" "switch.boiler" "sensor.boiler_temperature"
    (ROOM_TEMP + 5) (BOIL_TEMP - 5) (Some "boiler_water_heater").

(** A host in the given core state, with the given states of the switch
    and of the sensor ([None]: the entity has no state), whose service
    calls complete. *)
Definition sample_hass (core : CoreState) (switch sensor : option string)
  : HomeAssistant :=
  {| hass_state := core;
     hass_states :=
       let with_switch : gmap string State :=
         match switch with
         | Some v => {[ "switch.boiler" := mkState v ]}
         | None => ∅
         end in
       match sensor with
       | Some v => <[ "sensor.boiler_temperature" := mkState v ]> with_switch
       | None => with_switch
       end;
     hass_services := fun _ => None |}.

(** The state-change event of an entity that had no state before, with
    the given new state ([None]: the entity was removed). *)
Definition sample_event (new_state : option string) : Event :=
  {| data := {[ "old_state" := None; "new_state" := mkState <$> new_state ]} |}.

(** ** Facts about the methods *)

Section Facts.

Variable float : string -> string + pyfloat.
Variables ROOM_TEMP BOIL_TEMP : Z.
Variable SWITCH_DOMAIN : string.

Lemma str_in_unavailable_unknown (x : string) :
  str_in x [STATE_UNAVAILABLE; STATE_UNKNOWN] = true <->
  x = STATE_UNAVAILABLE \/ x = STATE_UNKNOWN.
Proof.
  unfold str_in; simpl. rewrite orb_false_r, orb_true_iff.
  by rewrite !String.eqb_eq.
Qed.

(** [_async_update_temp] never raises: it either stores a finite value
    or logs one error and leaves the object alone. *)
Lemma _async_update_temp_eq (st : State) (s : Sys) :
  _async_update_temp float st s =
  match finite_float float (state st) with
  | Some v => (Ok tt, {| obj := set_cur_temp (Some v) (obj s); out := out s |})
  | None =>
      (Ok tt,
       {| obj := obj s;
          out := out s ++ [LoggerError "Unable to update from sensor: %s"
                             (value_error_message float (state st))] |})
  end.
Proof.
  unfold _async_update_temp, try_except_ValueError, bind, call_float,
    finite_float, value_error_message.
  destruct (float (state st)) as [msg|v]; simpl; [done|].
  by destruct (isnan v || isinf v).
Qed.

(** The switch listener in its two branches. *)
Lemma async_state_changed_listener_eq (hass : HomeAssistant) (s : Sys) :
  async_state_changed_listener hass s =
  match hass_states hass !! _switch_entity_id (obj s) with
  | Some st =>
      if String.eqb (state st) STATE_UNAVAILABLE
      then (Ok tt, {| obj := set_attr_available false (obj s); out := out s |})
      else (Ok tt,
            {| obj := set_attr_is_on (Some (String.eqb (state st) STATE_ON))
                        (set_attr_available true (obj s));
               out := out s ++ [AsyncWriteHaState] |})
  | None => (Ok tt, {| obj := set_attr_available false (obj s); out := out s |})
  end.
Proof.
  unfold async_state_changed_listener, bind, get_self; simpl.
  destruct (hass_states hass !! _switch_entity_id (obj s)) as [st|]; [|done].
  by destruct (String.eqb (state st) STATE_UNAVAILABLE).
Qed.

Lemma service_calls_app (es fs : list Effect) :
  service_calls (es ++ fs) = service_calls es ++ service_calls fs.
Proof. apply omap_app. Qed.

(** [async_set_operation_mode] issues the one call its mode selects,
    and broadcasts the update once the call has completed. *)
Lemma async_set_operation_mode_eq (hass : HomeAssistant) (mode : string) (s : Sys) :
  let c := {| domain := SWITCH_DOMAIN;
              service := if String.eqb mode STATE_OFF
                         then SERVICE_TURN_OFF else SERVICE_TURN_ON;
              service_data := {[ ATTR_ENTITY_ID := _switch_entity_id (obj s) ]};
              blocking := true;
              context := _context (obj s) |} in
  async_set_operation_mode SWITCH_DOMAIN hass mode s =
  match hass_services hass c with
  | None =>
      (Ok tt,
       {| obj := obj s;
          out := (out s ++ [AsyncCall c]) ++ [AddExecutorJobDispatcherSend "update"] |})
  | Some e => (Raise e, {| obj := obj s; out := out s ++ [AsyncCall c] |})
  end.
Proof.
  unfold async_set_operation_mode, async_turn_off, async_turn_on,
    services_async_call, bind, get_self, emit, ret, raise; simpl.
  destruct (String.eqb mode STATE_OFF); simpl;
    match goal with |- context [hass_services hass ?c] =>
      destruct (hass_services hass c) end; done.
Qed.

(** [_async_sensor_changed] in its branches; it never raises. *)
Lemma _async_sensor_changed_eq (ev : Event) (s : Sys) :
  _async_sensor_changed float ev s =
  match dict_get (data ev) "new_state" with
  | Some st =>
      if str_in (state st) [STATE_UNAVAILABLE; STATE_UNKNOWN] then (Ok tt, s)
      else
        match finite_float float (state st) with
        | Some v =>
            (Ok tt,
             {| obj := set_cur_temp (Some v) (obj s);
                out := out s ++ [AsyncWriteHaState] |})
        | None =>
            (Ok tt,
             {| obj := obj s;
                out := (out s ++ [LoggerError "Unable to update from sensor: %s"
                                    (value_error_message float (state st))])
                       ++ [AsyncWriteHaState] |})
        end
  | None => (Ok tt, s)
  end.
Proof.
  unfold _async_sensor_changed.
  destruct (dict_get (data ev) "new_state") as [st|]; [|done].
  destruct (str_in (state st) [STATE_UNAVAILABLE; STATE_UNKNOWN]); [done|].
  unfold bind. rewrite _async_update_temp_eq.
  by destruct (finite_float float (state st)).
Qed.


(** [_async_startup] in its branches. *)
Lemma _async_startup_eq (hass : HomeAssistant) (s : Sys) :
  _async_startup float hass s =
  match hass_states hass !! _temperature_entity_id (obj s) with
  | Some st =>
      if str_in (state st) [STATE_UNAVAILABLE; STATE_UNKNOWN] then (Ok tt, s)
      else
        match finite_float float (state st) with
        | Some v =>
            (Ok tt,
             {| obj := set_cur_temp (Some v) (obj s);
                out := out s ++ [AsyncWriteHaState] |})
        | None =>
            (Ok tt,
             {| obj := obj s;
                out := (out s ++ [LoggerError "Unable to update from sensor: %s"
                                    (value_error_message float (state st))])
                       ++ [AsyncWriteHaState] |})
        end
  | None => (Ok tt, s)
  end.
Proof.
  unfold _async_startup, bind, get_self, ret, emit; simpl.
  destruct (hass_states hass !! _temperature_entity_id (obj s)) as [st|]; [|done].
  destruct (str_in (state st) [STATE_UNAVAILABLE; STATE_UNKNOWN]); simpl; [done|].
  rewrite _async_update_temp_eq.
  by destruct (finite_float float (state st)).
Qed.

(** The switch listener leaves the temperature and the entity ids alone. *)
Lemma async_state_changed_listener_frame (hass : HomeAssistant) (s : Sys) :
  let s' := snd (async_state_changed_listener hass s) in
  _cur_temp (obj s') = _cur_temp (obj s) /\
  _switch_entity_id (obj s') = _switch_entity_id (obj s).
Proof.
  simpl. rewrite async_state_changed_listener_eq.
  destruct (hass_states hass !! _switch_entity_id (obj s)) as [st|]; [|done].
  by destruct (String.eqb (state st) STATE_UNAVAILABLE).
Qed.

Lemma switch_notifications_switch_entity_id (hs : list HomeAssistant) (s : Sys) :
  _switch_entity_id (obj (switch_notifications hs s)) = _switch_entity_id (obj s).
Proof.
  revert s. induction hs as [|h hs IH]; intros s; [done|].
  unfold switch_notifications in *; simpl. rewrite IH.
  apply async_state_changed_listener_frame.
Qed.

Lemma switch_notifications_snoc (hs : list HomeAssistant) (h : HomeAssistant)
    (s : Sys) :
  switch_notifications (hs ++ [h]) s =
  snd (async_state_changed_listener h (switch_notifications hs s)).
Proof. unfold switch_notifications. by rewrite foldl_snoc. Qed.

(** One delivered sensor event: a valid reading replaces the stored
    temperature, anything else keeps it. *)
Lemma deliver_sensor_changed_cur_temp (ev : Event) (s : Sys) :
  finite_float float STATE_UNAVAILABLE = None ->
  finite_float float STATE_UNKNOWN = None ->
  _cur_temp (obj (deliver (_async_sensor_changed float) s ev)) =
  match valid_reading float ev with
  | Some v => Some v
  | None => _cur_temp (obj s)
  end.
Proof.
  intros Hunavailable Hunknown.
  unfold deliver, valid_reading. rewrite _async_sensor_changed_eq.
  destruct (dict_get (data ev) "new_state") as [st|]; [|done].
  destruct (str_in (state st) [STATE_UNAVAILABLE; STATE_UNKNOWN]) eqn:Hin.
  - apply str_in_unavailable_unknown in Hin as [-> | ->].
    + by rewrite Hunavailable.
    + by rewrite Hunknown.
  - by destruct (finite_float float (state st)).
Qed.

Lemma sensor_events_cur_temp (evs : list Event) (s : Sys) :
  finite_float float STATE_UNAVAILABLE = None ->
  finite_float float STATE_UNKNOWN = None ->
  _cur_temp (obj (sensor_events float evs s)) =
  match most_recent_valid float evs with
  | Some v => Some v
  | None => _cur_temp (obj s)
  end.
Proof.
  intros Hunavailable Hunknown. revert s.
  induction evs as [|ev evs IH]; intros s; [done|].
  unfold sensor_events, most_recent_valid in *; simpl.
  rewrite IH, (deliver_sensor_changed_cur_temp ev s Hunavailable Hunknown).
  destruct (valid_reading float ev) as [v|]; [|done].
  change (list_omap Event pyfloat (valid_reading float) evs)
    with (omap (valid_reading float) evs).
  rewrite last_cons.
  by destruct (last (omap (valid_reading float) evs)).
Qed.

(** Once the listener has seen the switch in a state other than
    "unavailable", the two properties depend on that state and on the
    package's constants only. *)
Lemma properties_after_switch_seen (hass : HomeAssistant) (s : Sys) (st : State) :
  hass_states hass !! _switch_entity_id (obj s) = Some st ->
  state st <> STATE_UNAVAILABLE ->
  let self := obj (snd (async_state_changed_listener hass s)) in
  current_operation self =
    Ok (if String.eqb (state st) STATE_ON then STATE_ELECTRIC else STATE_OFF) /\
  target_temperature ROOM_TEMP BOIL_TEMP self =
    Ok (if String.eqb (state st) STATE_ON then BOIL_TEMP else ROOM_TEMP).
Proof.
  intros Hst Hup. apply String.eqb_neq in Hup.
  simpl. rewrite async_state_changed_listener_eq, Hst, Hup.
  unfold current_operation, target_temperature, max_temp, min_temp; simpl.
  by destruct (String.eqb (state st) STATE_ON).
Qed.

(** *** The properties of the specification *)

(** C1 (as the code has it): with bounds configured five degrees inside
    the package's constants, a heater whose listener last saw the switch
    "on" reports "electric" and a target of [BOIL_TEMP], and one that
    last saw it "off" reports "off" and a target of [ROOM_TEMP]; the
    configured bounds are stored in [_attr_max_temp] and [_attr_min_temp]
    and the target differs from them. *)
Theorem C1_target_temperature_ignores_configured_bounds :
  let on_ := obj (snd (run (async_state_changed_listener
                              (sample_hass running (Some "on") None))
                           (sample_heater ROOM_TEMP BOIL_TEMP))) in
  let off_ := obj (snd (run (async_state_changed_listener
                               (sample_hass running (Some "off") None))
                            (sample_heater ROOM_TEMP BOIL_TEMP))) in
  (current_operation on_ = Ok "electric" /\
   target_temperature ROOM_TEMP BOIL_TEMP on_ = Ok BOIL_TEMP /\
   _attr_max_temp on_ = (BOIL_TEMP - 5)%Z /\
   target_temperature ROOM_TEMP BOIL_TEMP on_ <> Ok (_attr_max_temp on_)) /\
  (current_operation off_ = Ok "off" /\
   target_temperature ROOM_TEMP BOIL_TEMP off_ = Ok ROOM_TEMP /\
   _attr_min_temp off_ = (ROOM_TEMP + 5)%Z /\
   target_temperature ROOM_TEMP BOIL_TEMP off_ <> Ok (_attr_min_temp off_)).
Proof.
  assert (Hon : hass_states (sample_hass running (Some "on") None)
                 !! "switch.boiler" = Some (mkState "on"))
    by (vm_compute; reflexivity).
  assert (Hoff : hass_states (sample_hass running (Some "off") None)
                  !! "switch.boiler" = Some (mkState "off"))
    by (vm_compute; reflexivity).
  unfold run. rewrite !async_state_changed_listener_eq.
  unfold sample_heater; cbn [obj _switch_entity_id __init__].
  rewrite Hon, Hoff. cbn. unfold max_temp, min_temp.
  repeat split; try reflexivity; intros [= H]; lia.
Qed.

(** C2: starting from a freshly constructed adapter, after any finite
    sequence of sensor state-change events handled by
    [_async_sensor_changed], [current_temperature] is the float value
    of the most recent event whose state string parses as a finite
    float, and [None] when there is no such event.  (The builtin
    [float] gives no finite value for "unavailable" and "unknown".) *)
Theorem C2_current_temperature_is_most_recent_valid_reading
    (Hunavailable : finite_float float STATE_UNAVAILABLE = None)
    (Hunknown : finite_float float STATE_UNKNOWN = None)
    (name switch_entity_id temperature_entity_id : string)
    (min_temp max_temp : Z) (unique_id : option string)
    (evs : list Event) :
  current_temperature
    (obj (sensor_events float evs
            {| obj := __init__ name switch_entity_id temperature_entity_id
                        min_temp max_temp unique_id;
               out := [] |})) =
  most_recent_valid float evs.
Proof.
  unfold current_temperature. rewrite sensor_events_cur_temp by done.
  by destruct (most_recent_valid float evs).
Qed.

(** C3: a sensor state string that is non-numeric, or parses to NaN or
    to an infinite float, leaves [_cur_temp] (indeed the whole object)
    unchanged when processed by [_async_update_temp], which returns
    normally having emitted exactly one effect: one error log entry. *)
Theorem C3_invalid_state_keeps_temperature_and_logs_once
    (st : State) (s : Sys)
    (Hbad : (exists msg, float (state st) = inl msg) \/
            (exists v, float (state st) = inr v /\
                       (isnan v = true \/ isinf v = true))) :
  let r := _async_update_temp float st s in
  fst r = Ok tt /\
  _cur_temp (obj (snd r)) = _cur_temp (obj s) /\
  obj (snd r) = obj s /\
  out (snd r) =
    out s ++ [LoggerError "Unable to update from sensor: %s"
                (value_error_message float (state st))] /\
  length (error_logs (out (snd r))) = S (length (error_logs (out s))).
Proof.
  assert (Hnone : finite_float float (state st) = None).
  { unfold finite_float.
    destruct Hbad as [[msg ->]|(v & -> & Hv)]; [done|].
    destruct Hv as [-> | ->]; [done | by rewrite orb_true_r]. }
  simpl. rewrite _async_update_temp_eq, Hnone; simpl.
  repeat split.
  unfold error_logs. by rewrite omap_app, length_app, Nat.add_1_r.
Qed.

(** C4: when the switch listener finds the switch entity absent from
    the state machine, or in state "unavailable", it sets
    [_attr_available] to [False], whatever the rest of the host (the
    sensor included) and of the adapter may be. *)
Theorem C4_switch_absent_or_unavailable_marks_unavailable
    (hass : HomeAssistant) (s : Sys)
    (Hdown : hass_states hass !! _switch_entity_id (obj s) = None \/
             exists st, hass_states hass !! _switch_entity_id (obj s) = Some st /\
                        state st = STATE_UNAVAILABLE) :
  _attr_available (obj (snd (async_state_changed_listener hass s))) = false.
Proof.
  rewrite async_state_changed_listener_eq.
  destruct Hdown as [-> | (st & -> & ->)]; done.
Qed.

(** C5: [async_set_operation_mode] with the mode "off" issues exactly
    one service call: [turn_off] in the switch domain, blocking, with
    the configured switch entity id as its target; there is no other
    service call, whether the host completes the call or not. *)
Theorem C5_set_operation_mode_off_issues_one_turn_off
    (hass : HomeAssistant) (s : Sys) :
  service_calls (out (snd (async_set_operation_mode SWITCH_DOMAIN hass "off" s))) =
  service_calls (out s) ++
    [ {| domain := SWITCH_DOMAIN;
         service := SERVICE_TURN_OFF;
         service_data := {[ ATTR_ENTITY_ID := _switch_entity_id (obj s) ]};
         blocking := true;
         context := _context (obj s) |} ].
Proof.
  pose proof (async_set_operation_mode_eq hass "off" s) as H.
  simpl in H. rewrite H.
  match goal with |- context [hass_services hass ?c] =>
    destruct (hass_services hass c) end; simpl;
    by rewrite !service_calls_app, ?app_nil_r.
Qed.

(** C6 (amended): a sensor event whose new state is missing, or is
    "unknown" or "unavailable", is ignored by [_async_sensor_changed]
    without a trace: the stored temperature is kept, nothing is logged
    and no state is written. *)
Theorem C6_unknown_or_unavailable_reading_is_ignored_silently
    (ev : Event) (s : Sys)
    (Hskip : dict_get (data ev) "new_state" = None \/
             exists st, dict_get (data ev) "new_state" = Some st /\
                        (state st = STATE_UNAVAILABLE \/ state st = STATE_UNKNOWN)) :
  let r := _async_sensor_changed float ev s in
  r = (Ok tt, s) /\
  current_temperature (obj (snd r)) = current_temperature (obj s) /\
  error_logs (out (snd r)) = error_logs (out s) /\
  out (snd r) = out s.
Proof.
  simpl. rewrite _async_sensor_changed_eq.
  destruct Hskip as [-> | (st & -> & Hst)]; [done|].
  apply str_in_unavailable_unknown in Hst. by rewrite Hst.
Qed.

(** C7 (amended): after a sequence of switch notifications has been
    processed, the availability flag is a function of the switch state
    published at the last delivery; the on/off flag is a function of it
    when that state is present and not "unavailable", and otherwise is
    what it was before the last delivery. *)
Theorem C7_switch_flags_after_notifications
    (hs : list HomeAssistant) (h : HomeAssistant) (s : Sys) :
  let before := switch_notifications hs s in
  let after := switch_notifications (hs ++ [h]) s in
  let published := hass_states h !! _switch_entity_id (obj s) in
  _attr_available (obj after) = switch_available published /\
  _attr_is_on (obj after) =
    match published with
    | Some st =>
        if switch_available published
        then Some (String.eqb (state st) STATE_ON)
        else _attr_is_on (obj before)
    | None => _attr_is_on (obj before)
    end.
Proof.
  simpl. rewrite switch_notifications_snoc, async_state_changed_listener_eq.
  rewrite switch_notifications_switch_entity_id.
  destruct (hass_states h !! _switch_entity_id (obj s)) as [st|]; [|done].
  simpl. by destruct (String.eqb (state st) STATE_UNAVAILABLE).
Qed.

(** C8 (amended): when the sensor entity holds a state that is present,
    is neither "unavailable" nor "unknown", and parses as a finite
    float, [_async_startup] adopts that value as the current
    temperature; registration runs [_async_startup] at once when the
    host is running, and otherwise leaves it to the host's start event,
    for which it registers [_async_startup] as a one-time listener.  No
    sensor state-change event is involved. *)
Theorem C8_startup_adopts_valid_sensor_reading
    (hass : HomeAssistant) (s : Sys) (st : State) (v : pyfloat)
    (Hpresent : hass_states hass !! _temperature_entity_id (obj s) = Some st)
    (Hstate : state st <> STATE_UNAVAILABLE /\ state st <> STATE_UNKNOWN)
    (Hvalid : finite_float float (state st) = Some v) :
  current_temperature (obj (snd (_async_startup float hass s))) = Some v /\
  fst (async_added_to_hass float hass s) = Ok tt /\
  if is_running (hass_state hass)
  then current_temperature (obj (snd (async_added_to_hass float hass s))) = Some v
  else In (BusListenOnce EVENT_HOMEASSISTANT_START cb_async_startup)
          (out (snd (async_added_to_hass float hass s))).
Proof.
  assert (Hin : str_in (state st) [STATE_UNAVAILABLE; STATE_UNKNOWN] = false).
  { apply not_true_is_false. rewrite str_in_unavailable_unknown. tauto. }
  split.
  { by rewrite _async_startup_eq, Hpresent, Hin, Hvalid. }
  unfold async_added_to_hass, bind, get_self, emit; simpl.
  destruct (is_running (hass_state hass)).
  - rewrite _async_startup_eq; simpl. rewrite Hpresent, Hin, Hvalid; simpl.
    rewrite async_state_changed_listener_eq; simpl.
    destruct (hass_states hass !! _switch_entity_id (obj s)) as [sw|]; [|done].
    by destruct (String.eqb (state sw) STATE_UNAVAILABLE).
  - rewrite async_state_changed_listener_eq; simpl.
    destruct (hass_states hass !! _switch_entity_id (obj s)) as [sw|];
      [destruct (String.eqb (state sw) STATE_UNAVAILABLE)|]; simpl;
      (split; [done|]); rewrite ?in_app_iff; simpl; tauto.
Qed.

(** C9: when the switch listener finds the switch entity absent or in
    state "unavailable", it returns having changed nothing but the
    availability flag: [_attr_is_on] keeps its value, so
    [current_operation] and [target_temperature] report what they did
    before, and no effect (in particular no state write) reaches the
    host. *)
Theorem C9_switch_outage_changes_only_availability
    (hass : HomeAssistant) (s : Sys)
    (Hdown : hass_states hass !! _switch_entity_id (obj s) = None \/
             exists st, hass_states hass !! _switch_entity_id (obj s) = Some st /\
                        state st = STATE_UNAVAILABLE) :
  let r := async_state_changed_listener hass s in
  r = (Ok tt, {| obj := set_attr_available false (obj s); out := out s |}) /\
  _attr_is_on (obj (snd r)) = _attr_is_on (obj s) /\
  current_operation (obj (snd r)) = current_operation (obj s) /\
  target_temperature ROOM_TEMP BOIL_TEMP (obj (snd r)) =
    target_temperature ROOM_TEMP BOIL_TEMP (obj s) /\
  out (snd r) = out s /\
  state_writes (out (snd r)) = state_writes (out s).
Proof.
  simpl. rewrite async_state_changed_listener_eq.
  destruct Hdown as [-> | (st & -> & ->)]; done.
Qed.

(** C10: for every mode other than "off", in the advertised operation
    list or not, [async_set_operation_mode] does exactly what it does
    for "electric": it issues one [turn_on] call to the configured
    switch entity, and it returns normally whenever the host completes
    that call; the only exception it can raise is the host's. *)
Theorem C10_set_operation_mode_other_issues_turn_on
    (hass : HomeAssistant) (mode : string) (s : Sys)
    (Hmode : mode <> STATE_OFF) :
  let c := {| domain := SWITCH_DOMAIN;
              service := SERVICE_TURN_ON;
              service_data := {[ ATTR_ENTITY_ID := _switch_entity_id (obj s) ]};
              blocking := true;
              context := _context (obj s) |} in
  let r := async_set_operation_mode SWITCH_DOMAIN hass mode s in
  r = async_set_operation_mode SWITCH_DOMAIN hass STATE_ELECTRIC s /\
  service_calls (out (snd r)) = service_calls (out s) ++ [c] /\
  fst r = match hass_services hass c with
          | None => Ok tt
          | Some e => Raise e
          end.
Proof.
  apply String.eqb_neq in Hmode.
  simpl. rewrite !async_set_operation_mode_eq, Hmode. simpl.
  match goal with |- context [hass_services hass ?c] =>
    destruct (hass_services hass c) end; simpl;
    by rewrite !service_calls_app, ?app_nil_r.
Qed.

End Facts.

(** ** The theorems at concrete inputs *)

(** C2 at five events: "42", "abc", "unknown", a missing new state and
    "inf"; the temperature reported is that of the first. *)
Lemma C2_witness :
  finite_float float_fragment STATE_UNAVAILABLE = None /\
  finite_float float_fragment STATE_UNKNOWN = None /\
  current_temperature
    (obj (sensor_events float_fragment
            [sample_event (Some "42"); sample_event (Some "abc");
             sample_event (Some "unknown"); sample_event None;
             sample_event (Some "inf")]
            {| obj := __init__ "Complex Water Heater" "switch.boiler"
                        "sensor.boiler_temperature" 30 95 None;
               out := [] |})) =
  most_recent_valid float_fragment
    [sample_event (Some "42"); sample_event (Some "abc");
     sample_event (Some "unknown"); sample_event None;
     sample_event (Some "inf")].
Proof.
  split; [reflexivity|]. split; [reflexivity|].
  apply (C2_current_temperature_is_most_recent_valid_reading float_fragment);
    reflexivity.
Defined.

(** C3 at the state "abc", after a reading of 42 was stored. *)
Lemma C3_witness :
  fst (_async_update_temp float_fragment (mkState "abc")
         {| obj := set_cur_temp (Some (binary64_of_Z 42)) (sample_heater 25 100);
            out := [AsyncWriteHaState] |}) = Ok tt /\
  _cur_temp
    (obj (snd (_async_update_temp float_fragment (mkState "abc")
                 {| obj := set_cur_temp (Some (binary64_of_Z 42))
                             (sample_heater 25 100);
                    out := [AsyncWriteHaState] |}))) =
  Some (binary64_of_Z 42).
Proof.
  pose proof (C3_invalid_state_keeps_temperature_and_logs_once float_fragment
                (mkState "abc")
                {| obj := set_cur_temp (Some (binary64_of_Z 42))
                            (sample_heater 25 100);
                   out := [AsyncWriteHaState] |}
                (or_introl (ex_intro _ _ eq_refl))) as (Hret & Htemp & _).
  split; [exact Hret | exact Htemp].
Defined.

(** C4 at a host where the switch is "unavailable" while the sensor
    reads "42". *)
Lemma C4_witness :
  _attr_available
    (obj (snd (run (async_state_changed_listener
                      (sample_hass running (Some "unavailable") (Some "42")))
                   (sample_heater 25 100)))) = false.
Proof.
  apply (C4_switch_absent_or_unavailable_marks_unavailable
           (sample_hass running (Some "unavailable") (Some "42"))).
  right. exists (mkState "unavailable"). split; reflexivity.
Defined.

(** C6: an event whose new state is "unknown", one whose new state is
    "unavailable" and one without a new state each leave no effect at
    all behind: the reading is not logged. *)
Lemma C6_counterexample :
  out (snd (run (_async_sensor_changed float_fragment
                   (sample_event (Some "unknown")))
                (sample_heater 25 100))) = [] /\
  out (snd (run (_async_sensor_changed float_fragment
                   (sample_event (Some "unavailable")))
                (sample_heater 25 100))) = [] /\
  out (snd (run (_async_sensor_changed float_fragment (sample_event None))
                (sample_heater 25 100))) = [] /\
  error_logs
    (out (snd (run (_async_sensor_changed float_fragment
                      (sample_event (Some "abc")))
                   (sample_heater 25 100)))) =
  [("Unable to update from sensor: %s",
    "could not convert string to float: 'abc'")].
Proof. vm_compute. done. Qed.

(** C6 (amended) at an event whose new state is "unknown". *)
Lemma C6_witness :
  _async_sensor_changed float_fragment (sample_event (Some "unknown"))
    {| obj := sample_heater 25 100; out := [] |} =
  (Ok tt, {| obj := sample_heater 25 100; out := [] |}).
Proof.
  apply (C6_unknown_or_unavailable_reading_is_ignored_silently float_fragment
           (sample_event (Some "unknown"))
           {| obj := sample_heater 25 100; out := [] |}).
  right. exists (mkState "unknown"). split; [reflexivity|]. right. reflexivity.
Defined.

(** C7: the flags after the last notification are not a function of
    the switch state published then.  After "on" then "unavailable"
    the on/off flag is [True]; after "off" then "unavailable" it is
    [False]. *)
Lemma C7_counterexample :
  ~ exists proj : option State -> bool * option bool,
      forall (hs : list HomeAssistant) (h : HomeAssistant),
        (_attr_available
           (obj (switch_notifications (hs ++ [h])
                   {| obj := sample_heater 25 100; out := [] |})),
         _attr_is_on
           (obj (switch_notifications (hs ++ [h])
                   {| obj := sample_heater 25 100; out := [] |}))) =
        proj (hass_states h !! "switch.boiler").
Proof.
  intros [proj Hproj].
  pose proof (Hproj [sample_hass running (Some "on") None]
                (sample_hass running (Some "unavailable") None)) as Hon.
  pose proof (Hproj [sample_hass running (Some "off") None]
                (sample_hass running (Some "unavailable") None)) as Hoff.
  rewrite <- Hoff in Hon. vm_compute in Hon. discriminate Hon.
Qed.

(** C8: a running host whose sensor holds the state "abc", which is
    present and neither "unavailable" nor "unknown": registration logs
    an error and the current temperature stays unset. *)
Lemma C8_counterexample :
  hass_states (sample_hass running (Some "on") (Some "abc"))
    !! _temperature_entity_id (sample_heater 25 100) = Some (mkState "abc") /\
  str_in "abc" [STATE_UNAVAILABLE; STATE_UNKNOWN] = false /\
  current_temperature
    (obj (snd (run (async_added_to_hass float_fragment
                      (sample_hass running (Some "on") (Some "abc")))
                   (sample_heater 25 100)))) = None /\
  error_logs
    (out (snd (run (async_added_to_hass float_fragment
                      (sample_hass running (Some "on") (Some "abc")))
                   (sample_heater 25 100)))) =
  [("Unable to update from sensor: %s",
    "could not convert string to float: 'abc'")].
Proof. vm_compute. done. Qed.

(** C8 (amended) at a running host whose sensor reads "42". *)
Lemma C8_witness :
  current_temperature
    (obj (snd (_async_startup float_fragment
                 (sample_hass running (Some "on") (Some "42"))
                 {| obj := sample_heater 25 100; out := [] |}))) =
  Some (binary64_of_Z 42) /\
  current_temperature
    (obj (snd (async_added_to_hass float_fragment
                 (sample_hass running (Some "on") (Some "42"))
                 {| obj := sample_heater 25 100; out := [] |}))) =
  Some (binary64_of_Z 42).
Proof.
  assert (Hpresent :
    hass_states (sample_hass running (Some "on") (Some "42"))
      !! _temperature_entity_id (sample_heater 25 100) = Some (mkState "42"))
    by reflexivity.
  assert (Hstate : "42" <> STATE_UNAVAILABLE /\ "42" <> STATE_UNKNOWN)
    by (split; intros [=]).
  pose proof (C8_startup_adopts_valid_sensor_reading float_fragment
                (sample_hass running (Some "on") (Some "42"))
                {| obj := sample_heater 25 100; out := [] |}
                (mkState "42") (binary64_of_Z 42)
                Hpresent Hstate eq_refl) as (Hstartup & _ & Hadded).
  split; [exact Hstartup | exact Hadded].
Defined.

(** C9 at a host where the switch entity has no state, for a heater
    that last saw the switch "on". *)
Lemma C9_witness :
  async_state_changed_listener (sample_hass running None (Some "42"))
    {| obj := set_attr_is_on (Some true) (sample_heater 25 100);
       out := [AsyncWriteHaState] |} =
  (Ok tt,
   {| obj := set_attr_available false
               (set_attr_is_on (Some true) (sample_heater 25 100));
      out := [AsyncWriteHaState] |}).
Proof.
  apply (C9_switch_outage_changes_only_availability 25 100
           (sample_hass running None (Some "42"))
           {| obj := set_attr_is_on (Some true) (sample_heater 25 100);
              out := [AsyncWriteHaState] |}).
  left. reflexivity.
Defined.

(** C10 at the mode "turbo", which is not in the operation list. *)
Lemma C10_witness :
  async_set_operation_mode "switch" (sample_hass running (Some "off") None)
    "turbo" {| obj := sample_heater 25 100; out := [] |} =
  async_set_operation_mode "switch" (sample_hass running (Some "off") None)
    STATE_ELECTRIC {| obj := sample_heater 25 100; out := [] |}.
Proof.
  apply (C10_set_operation_mode_other_issues_turn_on "switch"
           (sample_hass running (Some "off") None) "turbo"
           {| obj := sample_heater 25 100; out := [] |}).
  intros [=].
Defined.

(** ** Further facts: the adapter under the host's calls *)

Section HostFacts.

Variable float : string -> string + pyfloat.
Variables ROOM_TEMP BOIL_TEMP : Z.
Variable SWITCH_DOMAIN : string.

(** The service call of [async_turn_on] and [async_turn_off]. *)
Lemma async_turn_eq (hass : HomeAssistant) (s : Sys) :
  let c name :=
    {| domain := SWITCH_DOMAIN;
       service := name;
       service_data := {[ ATTR_ENTITY_ID := _switch_entity_id (obj s) ]};
       blocking := true;
       context := _context (obj s) |} in
  let after name :=
    (match hass_services hass (c name) with
     | None => Ok tt
     | Some e => Raise e
     end,
     {| obj := obj s; out := out s ++ [AsyncCall (c name)] |}) in
  async_turn_on SWITCH_DOMAIN hass s = after SERVICE_TURN_ON /\
  async_turn_off SWITCH_DOMAIN hass s = after SERVICE_TURN_OFF.
Proof.
  unfold async_turn_on, async_turn_off, services_async_call, bind, get_self,
    emit, ret, raise; simpl.
  split;
    match goal with |- context [hass_services hass ?c] =>
      destruct (hass_services hass c) end; done.
Qed.

Lemma _async_startup_returns (hass : HomeAssistant) (s : Sys) :
  fst (_async_startup float hass s) = Ok tt.
Proof.
  rewrite _async_startup_eq.
  destruct (hass_states hass !! _temperature_entity_id (obj s)) as [st|]; [|done].
  destruct (str_in (state st) [STATE_UNAVAILABLE; STATE_UNKNOWN]); [done|].
  by destruct (finite_float float (state st)).
Qed.


(** [_async_startup] touches the temperature and the effects only. *)
Lemma _async_startup_frame (hass : HomeAssistant) (s : Sys) :
  let s' := snd (_async_startup float hass s) in
  same_configuration (obj s') (obj s) /\
  _attr_available (obj s') = _attr_available (obj s) /\
  _attr_is_on (obj s') = _attr_is_on (obj s).
Proof.
  simpl. rewrite _async_startup_eq. unfold same_configuration.
  destruct (hass_states hass !! _temperature_entity_id (obj s)) as [st|]; [|done].
  destruct (str_in (state st) [STATE_UNAVAILABLE; STATE_UNKNOWN]); [done|].
  by destruct (finite_float float (state st)).
Qed.

(** Registration, step by step: the sensor subscription, the startup
    read or its deferral, the switch subscription, the first run of the
    switch listener. *)
Lemma async_added_to_hass_eq (hass : HomeAssistant) (s : Sys) :
  let s1 := {| obj := obj s;
               out := out s ++ [OnRemoveTrackStateChangeEvent
                                  [_temperature_entity_id (obj s)]
                                  cb_async_sensor_changed] |} in
  let s2 := if is_running (hass_state hass)
            then snd (_async_startup float hass s1)
            else {| obj := obj s;
                    out := out s1 ++ [BusListenOnce EVENT_HOMEASSISTANT_START
                                        cb_async_startup] |} in
  let s3 := {| obj := obj s2;
               out := out s2 ++ [OnRemoveTrackStateChangeEvent
                                   [_switch_entity_id (obj s)]
                                   cb_async_state_changed_listener] |} in
  async_added_to_hass float hass s = async_state_changed_listener hass s3.
Proof.
  unfold async_added_to_hass, bind, get_self, emit; simpl.
  destruct (is_running (hass_state hass)); [|done].
  pose proof (_async_startup_returns hass
    {| obj := obj s;
       out := out s ++ [OnRemoveTrackStateChangeEvent
                          [_temperature_entity_id (obj s)]
                          cb_async_sensor_changed] |}) as Hret.
  destruct (_async_startup float hass _) as [r s']; simpl in *.
  by rewrite Hret.
Qed.

Ltac method_cases :=
  repeat match goal with
    | |- context [match hass_states ?h !! ?k with _ => _ end] =>
        destruct (hass_states h !! k) eqn:?
    | |- context [if String.eqb ?a ?b then _ else _] =>
        destruct (String.eqb a b) eqn:?
    | |- context [if str_in ?a ?b then _ else _] =>
        destruct (str_in a b) eqn:?
    | |- context [match finite_float ?f ?x with _ => _ end] =>
        destruct (finite_float f x) eqn:?
    | |- context [match hass_services ?h ?c with _ => _ end] =>
        destruct (hass_services h c) eqn:?
    | |- context [match dict_get ?d ?k with _ => _ end] =>
        destruct (dict_get d k) eqn:?
    | |- context [if is_running ?x then _ else _] =>
        destruct (is_running x) eqn:?
    end; simpl.

(** *** Properties of the methods *)

(** X1: [_async_startup] treats the state the sensor holds exactly as
    [_async_sensor_changed] treats an event that carries it as its new
    state: same result, same object, same effects. *)
Theorem X1_startup_is_a_sensor_event_for_the_held_state
    (hass : HomeAssistant) (s : Sys) :
  _async_startup float hass s =
  _async_sensor_changed float
    {| data := {[ "new_state" :=
                    hass_states hass !! _temperature_entity_id (obj s) ]} |} s.
Proof.
  rewrite _async_startup_eq, _async_sensor_changed_eq.
  unfold dict_get; simpl. by rewrite lookup_singleton_eq.
Qed.


(** X3: [async_set_operation_mode] sends the "update" signal if and
    only if it returns normally, that is when the host completed the
    service call; when the host raises, the exception is passed on and
    the service call is the only effect. *)
Theorem X3_set_operation_mode_signals_only_after_completion
    (hass : HomeAssistant) (mode : string) (s : Sys) :
  let r := async_set_operation_mode SWITCH_DOMAIN hass mode s in
  match fst r with
  | Ok _ =>
      exists c, hass_services hass c = None /\
                out (snd r) =
                  out s ++ [AsyncCall c; AddExecutorJobDispatcherSend "update"]
  | Raise e =>
      exists c, hass_services hass c = Some e /\
                out (snd r) = out s ++ [AsyncCall c]
  end.
Proof.
  simpl. rewrite async_set_operation_mode_eq. cbv zeta.
  match goal with |- context [hass_services hass ?c] =>
    destruct (hass_services hass c) eqn:Hc; simpl; exists c end.
  - done.
  - by rewrite <- app_assoc.
Qed.

(** X4: no command changes the adapter object: [async_turn_on],
    [async_turn_off] and [async_set_operation_mode] leave every field
    as it was, so the reported operation and target follow the switch
    only once its listener runs. *)
Theorem X4_commands_leave_the_object_unchanged
    (hass : HomeAssistant) (mode : string) (s : Sys) :
  obj (snd (async_turn_on SWITCH_DOMAIN hass s)) = obj s /\
  obj (snd (async_turn_off SWITCH_DOMAIN hass s)) = obj s /\
  obj (snd (async_set_operation_mode SWITCH_DOMAIN hass mode s)) = obj s /\
  current_operation
    (obj (snd (async_set_operation_mode SWITCH_DOMAIN hass mode s))) =
  current_operation (obj s).
Proof.
  destruct (async_turn_eq hass s) as [-> ->]; cbv zeta.
  rewrite async_set_operation_mode_eq; cbv zeta.
  by method_cases.
Qed.

(** X5: the switch listener is idempotent on the object: run twice
    against the same host it leaves the object it left the first time;
    only a second state write is added when the switch is available. *)
Theorem X5_switch_listener_is_idempotent (hass : HomeAssistant) (s : Sys) :
  let once := snd (async_state_changed_listener hass s) in
  let twice := snd (async_state_changed_listener hass once) in
  obj twice = obj once /\
  out twice =
    out once ++
    (if switch_available (hass_states hass !! _switch_entity_id (obj s))
     then [AsyncWriteHaState] else []).
Proof.
  simpl. rewrite (async_state_changed_listener_eq hass s).
  destruct (hass_states hass !! _switch_entity_id (obj s)) as [st|] eqn:Hst;
    simpl.
  - destruct (String.eqb (state st) STATE_UNAVAILABLE) eqn:Hun; simpl;
      rewrite async_state_changed_listener_eq; simpl; rewrite Hst, Hun; simpl;
      by rewrite ?app_nil_r.
  - rewrite async_state_changed_listener_eq; simpl; rewrite Hst; simpl.
    by rewrite app_nil_r.
Qed.

(** X6: a sensor event whose new state passes the guard but is not a
    finite float still ends in a state write: the object is unchanged,
    and the effects are one error log entry followed by one state
    write. *)
Theorem X6_rejected_reading_is_logged_then_state_is_written
    (event : Event) (st : State) (s : Sys)
    (Hnew : dict_get (data event) "new_state" = Some st)
    (Hguard : state st <> STATE_UNAVAILABLE /\ state st <> STATE_UNKNOWN)
    (Hrejected : finite_float float (state st) = None) :
  _async_sensor_changed float event s =
  (Ok tt,
   {| obj := obj s;
      out := out s ++ [LoggerError "Unable to update from sensor: %s"
                         (value_error_message float (state st));
                       AsyncWriteHaState] |}).
Proof.
  assert (Hin : str_in (state st) [STATE_UNAVAILABLE; STATE_UNKNOWN] = false).
  { apply not_true_is_false. rewrite str_in_unavailable_unknown. tauto. }
  rewrite _async_sensor_changed_eq, Hnew, Hin, Hrejected.
  by rewrite <- app_assoc.
Qed.

(** What registration has done to the object before the switch
    listener runs: at most a temperature update. *)
Lemma async_added_to_hass_before_listener (hass : HomeAssistant) (s : Sys) :
  let s1 := {| obj := obj s;
               out := out s ++ [OnRemoveTrackStateChangeEvent
                                  [_temperature_entity_id (obj s)]
                                  cb_async_sensor_changed] |} in
  let s2 := if is_running (hass_state hass)
            then snd (_async_startup float hass s1)
            else {| obj := obj s;
                    out := out s1 ++ [BusListenOnce EVENT_HOMEASSISTANT_START
                                        cb_async_startup] |} in
  same_configuration (obj s2) (obj s) /\
  _attr_available (obj s2) = _attr_available (obj s) /\
  _attr_is_on (obj s2) = _attr_is_on (obj s).
Proof.
  simpl. destruct (is_running (hass_state hass)).
  - apply (_async_startup_frame hass
             {| obj := obj s;
                out := out s ++ [OnRemoveTrackStateChangeEvent
                                   [_temperature_entity_id (obj s)]
                                   cb_async_sensor_changed] |}).
  - by unfold same_configuration.
Qed.



Lemma error_logs_app (es fs : list Effect) :
  error_logs (es ++ fs) = error_logs es ++ error_logs fs.
Proof. apply omap_app. Qed.

(** The effects of [_async_startup] and of the switch listener are log
    entries and state writes only. *)
Lemma _async_startup_out (hass : HomeAssistant) (s : Sys) :
  exists new,
    out (snd (_async_startup float hass s)) = out s ++ new /\
    subscriptions new = [] /\ bus_listeners new = [] /\
    service_calls new = [] /\ dispatcher_signals new = [] /\
    length (error_logs new) <= 1.
Proof.
  rewrite _async_startup_eq. method_cases.
  - exists []. rewrite app_nil_r. repeat split; simpl; lia.
  - exists [AsyncWriteHaState]. repeat split; simpl; lia.
  - eexists. rewrite <- app_assoc. split; [done|]. repeat split; simpl; lia.
  - exists []. rewrite app_nil_r. repeat split; simpl; lia.
Qed.

Lemma async_state_changed_listener_out (hass : HomeAssistant) (s : Sys) :
  out (snd (async_state_changed_listener hass s)) =
  out s ++
  (if switch_available (hass_states hass !! _switch_entity_id (obj s))
   then [AsyncWriteHaState] else []).
Proof.
  rewrite async_state_changed_listener_eq. unfold switch_available.
  method_cases; by rewrite ?app_nil_r.
Qed.

(** *** Properties of registration *)

(** The flags right after registration. *)
Lemma async_added_to_hass_flags (hass : HomeAssistant) (s : Sys) :
  let s' := snd (async_added_to_hass float hass s) in
  let published := hass_states hass !! _switch_entity_id (obj s) in
  _attr_available (obj s') = switch_available published /\
  _attr_is_on (obj s') =
    match published with
    | Some st =>
        if switch_available published
        then Some (String.eqb (state st) STATE_ON)
        else _attr_is_on (obj s)
    | None => _attr_is_on (obj s)
    end.
Proof.
  simpl. rewrite async_added_to_hass_eq; cbv zeta.
  pose proof (async_added_to_hass_before_listener hass s) as Hbefore.
  cbv zeta in Hbefore.
  set (s2 := if is_running (hass_state hass) then _ else _) in *.
  destruct Hbefore as ((_ & _ & _ & _ & Hsw & _ & _) & _ & Hon).
  rewrite async_state_changed_listener_eq; cbn [obj out].
  rewrite Hsw.
  destruct (hass_states hass !! _switch_entity_id (obj s)) as [st|]; simpl;
    [|done].
  by destruct (String.eqb (state st) STATE_UNAVAILABLE).
Qed.



(** X9: on a host that is not running, registration does not read the
    sensor: the stored temperature is kept and nothing is logged, even
    when the sensor holds a valid reading. *)
Theorem X9_registration_defers_the_sensor_read
    (hass : HomeAssistant) (s : Sys)
    (Hnot : is_running (hass_state hass) = false) :
  let s' := snd (async_added_to_hass float hass s) in
  current_temperature (obj s') = current_temperature (obj s) /\
  error_logs (out s') = error_logs (out s).
Proof.
  simpl. rewrite async_added_to_hass_eq; cbv zeta. rewrite Hnot.
  split.
  - unfold current_temperature.
    by rewrite (proj1 (async_state_changed_listener_frame hass _)).
  - rewrite async_state_changed_listener_out; cbn [obj out].
    rewrite !error_logs_app; simpl.
    match goal with |- context [if ?b then _ else _] => destruct b end;
      simpl; by rewrite !app_nil_r.
Qed.

(** *** One call *)

Lemma guarded_reading_finite (published : option State) (v : pyfloat) :
  guarded_reading float published = Some v ->
  isnan v = false /\ isinf v = false.
Proof.
  unfold guarded_reading, finite_float.
  destruct published as [st|]; [|done].
  destruct (str_in (state st) [STATE_UNAVAILABLE; STATE_UNKNOWN]); [done|].
  destruct (float (state st)) as [msg|w]; [done|].
  destruct (isnan w || isinf w) eqn:Hw; [done|].
  intros [= <-]. by apply orb_false_elim.
Qed.

Lemma stored_by_finite (sensor_entity_id : string) (c : Call) (v : pyfloat) :
  stored_by float sensor_entity_id c = Some v ->
  isnan v = false /\ isinf v = false.
Proof.
  destruct c; simpl; try done; try apply guarded_reading_finite.
  destruct (is_running (hass_state hass)); [apply guarded_reading_finite|done].
Qed.

(** What the two sensor readers do to the stored temperature. *)
Lemma _async_startup_cur_temp (hass : HomeAssistant) (s : Sys) :
  _cur_temp (obj (snd (_async_startup float hass s))) =
  match guarded_reading float
          (hass_states hass !! _temperature_entity_id (obj s)) with
  | Some v => Some v
  | None => _cur_temp (obj s)
  end.
Proof.
  rewrite _async_startup_eq. unfold guarded_reading. by method_cases.
Qed.

Lemma _async_sensor_changed_frame (event : Event) (s : Sys) :
  let s' := snd (_async_sensor_changed float event s) in
  same_configuration (obj s') (obj s) /\
  _attr_available (obj s') = _attr_available (obj s) /\
  _attr_is_on (obj s') = _attr_is_on (obj s) /\
  _cur_temp (obj s') =
    match guarded_reading float (dict_get (data event) "new_state") with
    | Some v => Some v
    | None => _cur_temp (obj s)
    end.
Proof.
  simpl. rewrite _async_sensor_changed_eq.
  unfold guarded_reading, same_configuration. by method_cases.
Qed.

Lemma async_state_changed_listener_same_configuration
    (hass : HomeAssistant) (s : Sys) :
  same_configuration (obj (snd (async_state_changed_listener hass s))) (obj s).
Proof.
  rewrite async_state_changed_listener_eq. unfold same_configuration.
  by method_cases.
Qed.


Lemma same_configuration_trans (a b c : ComplexWaterHeater) :
  same_configuration a b -> same_configuration b c -> same_configuration a c.
Proof. unfold same_configuration. intuition congruence. Qed.

Lemma commands_obj (hass : HomeAssistant) (mode : string) (s : Sys) :
  obj (snd (async_turn_on SWITCH_DOMAIN hass s)) = obj s /\
  obj (snd (async_turn_off SWITCH_DOMAIN hass s)) = obj s /\
  obj (snd (async_set_operation_mode SWITCH_DOMAIN hass mode s)) = obj s.
Proof.
  destruct (async_turn_eq hass s) as [-> ->]; cbv zeta.
  rewrite async_set_operation_mode_eq; cbv zeta.
  by method_cases.
Qed.

(** No call touches the configuration. *)
Lemma perform_same_configuration (c : Call) (s : Sys) :
  same_configuration (obj (snd (perform float SWITCH_DOMAIN c s))) (obj s).
Proof.
  destruct c; simpl.
  - rewrite async_added_to_hass_eq; cbv zeta.
    pose proof (async_added_to_hass_before_listener hass s) as Hbefore.
    cbv zeta in Hbefore.
    set (s2 := if is_running (hass_state hass) then _ else _) in *.
    eapply same_configuration_trans;
      [apply async_state_changed_listener_same_configuration|].
    apply Hbefore.
  - apply _async_startup_frame.
  - apply _async_sensor_changed_frame.
  - apply async_state_changed_listener_same_configuration.
  - rewrite (proj1 (commands_obj hass "" s)). by unfold same_configuration.
  - rewrite (proj1 (proj2 (commands_obj hass "" s))).
    by unfold same_configuration.
  - rewrite (proj2 (proj2 (commands_obj hass operation_mode s))).
    by unfold same_configuration.
Qed.

(** The stored temperature after a call. *)
Lemma perform_cur_temp (c : Call) (s : Sys) :
  _cur_temp (obj (snd (perform float SWITCH_DOMAIN c s))) =
  match stored_by float (_temperature_entity_id (obj s)) c with
  | Some v => Some v
  | None => _cur_temp (obj s)
  end.
Proof.
  destruct c; simpl.
  - rewrite async_added_to_hass_eq; cbv zeta.
    rewrite (proj1 (async_state_changed_listener_frame hass _)); cbn [obj].
    destruct (is_running (hass_state hass)); [|done].
    by rewrite _async_startup_cur_temp.
  - apply _async_startup_cur_temp.
  - apply _async_sensor_changed_frame.
  - apply async_state_changed_listener_frame.
  - by rewrite (proj1 (commands_obj hass "" s)).
  - by rewrite (proj1 (proj2 (commands_obj hass "" s))).
  - by rewrite (proj2 (proj2 (commands_obj hass operation_mode s))).
Qed.


Lemma history_cons (c : Call) (cs : list Call) (s : Sys) :
  history float SWITCH_DOMAIN (c :: cs) s =
  history float SWITCH_DOMAIN cs (snd (perform float SWITCH_DOMAIN c s)).
Proof. done. Qed.

Lemma history_same_configuration (cs : list Call) (s : Sys) :
  same_configuration (obj (history float SWITCH_DOMAIN cs s)) (obj s).
Proof.
  revert s. induction cs as [|c cs IH]; intros s.
  - by unfold same_configuration.
  - rewrite history_cons.
    eapply same_configuration_trans; [apply IH|].
    apply perform_same_configuration.
Qed.

Lemma _async_sensor_changed_out (event : Event) (s : Sys) :
  exists new,
    out (snd (_async_sensor_changed float event s)) = out s ++ new /\
    service_calls new = [] /\ length (error_logs new) <= 1.
Proof.
  rewrite _async_sensor_changed_eq. method_cases.
  - exists []. rewrite app_nil_r. repeat split; simpl; lia.
  - exists [AsyncWriteHaState]. repeat split; simpl; lia.
  - eexists. rewrite <- app_assoc. split; [done|]. repeat split; simpl; lia.
  - exists []. rewrite app_nil_r. repeat split; simpl; lia.
Qed.

(** The effects of one call: exactly one service call, to the wrapped
    switch, for a command and none for a callback; at most one error
    log entry for a call that reads the sensor and none for another. *)
Lemma perform_out (c : Call) (s : Sys) :
  exists new,
    out (snd (perform float SWITCH_DOMAIN c s)) = out s ++ new /\
    length (service_calls new) = (if is_command c then 1 else 0) /\
    Forall (switch_call SWITCH_DOMAIN (obj s)) (service_calls new) /\
    length (error_logs new) <= (if reads_sensor c then 1 else 0).
Proof.
  destruct c; simpl.
  - rewrite async_added_to_hass_eq; cbv zeta.
    rewrite async_state_changed_listener_out; cbn [obj out].
    match goal with |- context [if switch_available ?p then _ else _] =>
      generalize (switch_available p); intros b end.
    destruct (is_running (hass_state hass)).
    + match goal with |- context [_async_startup float hass ?s1] =>
        destruct (_async_startup_out hass s1)
          as (new & -> & _ & _ & Hcalls & _ & Hlogs) end.
      cbn [out]. rewrite <- !app_assoc. eexists. split; [done|].
      rewrite !service_calls_app, !error_logs_app, !length_app, Hcalls.
      destruct b; simpl; repeat split; auto; lia.
    + cbn [out]. rewrite <- !app_assoc. eexists. split; [done|].
      destruct b; simpl; repeat split; auto.
  - destruct (_async_startup_out hass s)
      as (new & -> & _ & _ & Hcalls & _ & Hlogs).
    exists new. rewrite Hcalls. by repeat split.
  - destruct (_async_sensor_changed_out event s) as (new & -> & Hcalls & Hlogs).
    exists new. rewrite Hcalls. by repeat split.
  - rewrite async_state_changed_listener_out.
    eexists. split; [done|].
    match goal with |- context [if ?b then _ else _] => destruct b end;
      simpl; repeat split; auto.
  - rewrite (proj1 (async_turn_eq hass s)); cbv zeta; cbn [snd out].
    eexists. split; [done|]. simpl. repeat split; auto.
    apply Forall_singleton. unfold switch_call; simpl. tauto.
  - rewrite (proj2 (async_turn_eq hass s)); cbv zeta; cbn [snd out].
    eexists. split; [done|]. simpl. repeat split; auto.
    apply Forall_singleton. unfold switch_call; simpl. tauto.
  - rewrite async_set_operation_mode_eq; cbv zeta.
    assert (Hcall : forall c0 : ServiceCall,
               c0 = {| domain := SWITCH_DOMAIN;
                       service := if String.eqb operation_mode STATE_OFF
                                  then SERVICE_TURN_OFF else SERVICE_TURN_ON;
                       service_data :=
                         {[ ATTR_ENTITY_ID := _switch_entity_id (obj s) ]};
                       blocking := true;
                       context := _context (obj s) |} ->
               switch_call SWITCH_DOMAIN (obj s) c0).
    { intros c0 ->. unfold switch_call; simpl.
      destruct (String.eqb operation_mode STATE_OFF); tauto. }
    match goal with |- context [hass_services hass ?c0] =>
      specialize (Hcall c0 eq_refl); destruct (hass_services hass c0) end;
      cbn [snd out]; rewrite <- ?app_assoc; (eexists; split; [done|]);
      simpl; repeat split; auto; by apply Forall_singleton.
Qed.

Lemma switch_call_same_configuration (a b : ComplexWaterHeater) (c : ServiceCall) :
  same_configuration a b ->
  switch_call SWITCH_DOMAIN a c -> switch_call SWITCH_DOMAIN b c.
Proof.
  unfold same_configuration, switch_call.
  intros (_ & _ & _ & _ & Hsw & _ & Hctx). by rewrite Hsw, Hctx.
Qed.

Lemma history_out (cs : list Call) (s : Sys) :
  exists new,
    out (history float SWITCH_DOMAIN cs s) = out s ++ new /\
    length (service_calls new) = length (List.filter is_command cs) /\
    Forall (switch_call SWITCH_DOMAIN (obj s)) (service_calls new) /\
    length (error_logs new) <= length (List.filter reads_sensor cs).
Proof.
  revert s. induction cs as [|c cs IH]; intros s.
  - exists []. rewrite app_nil_r. repeat split; simpl; auto.
  - rewrite history_cons.
    destruct (perform_out c s) as (new1 & Hout1 & Hn1 & Hf1 & Hl1).
    destruct (IH (snd (perform float SWITCH_DOMAIN c s)))
      as (new2 & Hout2 & Hn2 & Hf2 & Hl2).
    exists (new1 ++ new2). rewrite Hout2, Hout1, <- app_assoc.
    split; [done|].
    rewrite service_calls_app, error_logs_app, !length_app, Hn1, Hn2.
    repeat split.
    + simpl. by destruct (is_command c).
    + apply Forall_app. split; [done|].
      eapply Forall_impl; [apply Hf2|].
      intros sc. apply switch_call_same_configuration.
      apply perform_same_configuration.
    + simpl. destruct (reads_sensor c); simpl; lia.
Qed.

Lemma history_cur_temp_finite (cs : list Call) (s : Sys) :
  finite_or_unset (_cur_temp (obj s)) = true ->
  finite_or_unset (_cur_temp (obj (history float SWITCH_DOMAIN cs s))) = true.
Proof.
  revert s. induction cs as [|c cs IH]; intros s Hs; [done|].
  rewrite history_cons. apply IH. rewrite perform_cur_temp.
  destruct (stored_by float _ c) as [v|] eqn:Hv; [|done].
  apply stored_by_finite in Hv as [Hnan Hinf].
  simpl. by rewrite Hnan, Hinf.
Qed.

Lemma history_cur_temp_stays_set (cs : list Call) (s : Sys) :
  is_Some (_cur_temp (obj s)) ->
  is_Some (_cur_temp (obj (history float SWITCH_DOMAIN cs s))).
Proof.
  revert s. induction cs as [|c cs IH]; intros s Hs; [done|].
  rewrite history_cons. apply IH. rewrite perform_cur_temp.
  by destruct (stored_by float _ c).
Qed.


(** The flags after a call, as a function of the flags before it and of
    the switch's state at a call that runs the listener. *)
Lemma perform_flags_eq (c : Call) (s : Sys) :
  let s' := snd (perform float SWITCH_DOMAIN c s) in
  let published :=
    match c with
    | call_async_added_to_hass hass
    | call_async_state_changed_listener hass =>
        hass_states hass !! _switch_entity_id (obj s)
    | _ => None
    end in
  _attr_available (obj s') =
    (if runs_listener c then switch_available published
     else _attr_available (obj s)) /\
  _attr_is_on (obj s') =
    match published with
    | Some st =>
        if switch_available published
        then Some (String.eqb (state st) STATE_ON)
        else _attr_is_on (obj s)
    | None => _attr_is_on (obj s)
    end.
Proof.
  destruct c; simpl.
  - apply async_added_to_hass_flags.
  - split; apply _async_startup_frame.
  - split; apply _async_sensor_changed_frame.
  - rewrite async_state_changed_listener_eq.
    destruct (hass_states hass !! _switch_entity_id (obj s)) as [st|];
      simpl; [|done].
    by destruct (String.eqb (state st) STATE_UNAVAILABLE).
  - by rewrite (proj1 (commands_obj hass "" s)).
  - by rewrite (proj1 (proj2 (commands_obj hass "" s))).
  - by rewrite (proj2 (proj2 (commands_obj hass operation_mode s))).
Qed.

Lemma stored_by_not_reading (sensor_entity_id : string) (c : Call) :
  reads_sensor c = false -> stored_by float sensor_entity_id c = None.
Proof. by destruct c. Qed.

Lemma history_cur_temp_sensor_only (cs : list Call) (s t : Sys) :
  _cur_temp (obj s) = _cur_temp (obj t) ->
  _temperature_entity_id (obj s) = _temperature_entity_id (obj t) ->
  _cur_temp (obj (history float SWITCH_DOMAIN cs s)) =
  _cur_temp (obj (history float SWITCH_DOMAIN (List.filter reads_sensor cs) t)).
Proof.
  revert s t. induction cs as [|c cs IH]; intros s t Htemp Hid; [done|].
  rewrite history_cons.
  pose proof (perform_same_configuration c s) as (_ & _ & _ & _ & _ & Hs & _).
  simpl. destruct (reads_sensor c) eqn:Hc.
  - rewrite history_cons.
    pose proof (perform_same_configuration c t) as (_ & _ & _ & _ & _ & Ht & _).
    apply IH; [|congruence].
    by rewrite !perform_cur_temp, Hid, Htemp.
  - apply IH; [|congruence].
    by rewrite perform_cur_temp, stored_by_not_reading.
Qed.

Lemma history_flags_listener_only (cs : list Call) (s t : Sys) :
  _attr_available (obj s) = _attr_available (obj t) ->
  _attr_is_on (obj s) = _attr_is_on (obj t) ->
  _switch_entity_id (obj s) = _switch_entity_id (obj t) ->
  let s' := history float SWITCH_DOMAIN cs s in
  let t' := history float SWITCH_DOMAIN (List.filter runs_listener cs) t in
  _attr_available (obj s') = _attr_available (obj t') /\
  _attr_is_on (obj s') = _attr_is_on (obj t').
Proof.
  revert s t. induction cs as [|c cs IH]; intros s t Ha Hon Hid; [done|].
  cbv zeta. rewrite history_cons.
  pose proof (perform_same_configuration c s) as (_ & _ & _ & _ & Hs & _ & _).
  pose proof (perform_flags_eq c s) as [Has Hons]. cbv zeta in Has, Hons.
  simpl. destruct (runs_listener c) eqn:Hc.
  - rewrite history_cons.
    pose proof (perform_same_configuration c t) as (_ & _ & _ & _ & Ht & _ & _).
    pose proof (perform_flags_eq c t) as [Hat Hont]. cbv zeta in Hat, Hont.
    apply IH; [| |congruence].
    + by rewrite Has, Hat, Hc, Hid.
    + by rewrite Hons, Hont, Hid, Hon.
  - apply IH; [| |congruence].
    + by rewrite Has.
    + rewrite Hons. by destruct c.
Qed.

Lemma guarded_reading_valid (published : option State) :
  finite_float float STATE_UNAVAILABLE = None ->
  finite_float float STATE_UNKNOWN = None ->
  guarded_reading float published =
  match published with
  | Some st => finite_float float (state st)
  | None => None
  end.
Proof.
  intros Hunavailable Hunknown. unfold guarded_reading.
  destruct published as [st|]; [|done].
  destruct (str_in (state st) [STATE_UNAVAILABLE; STATE_UNKNOWN]) eqn:Hin;
    [|done].
  apply str_in_unavailable_unknown in Hin as [-> | ->]; done.
Qed.

Lemma stored_by_call_reading (sensor_entity_id : string) (c : Call) :
  finite_float float STATE_UNAVAILABLE = None ->
  finite_float float STATE_UNKNOWN = None ->
  stored_by float sensor_entity_id c = call_reading float sensor_entity_id c.
Proof.
  intros Hunavailable Hunknown.
  destruct c; simpl; unfold held_reading, valid_reading;
    rewrite ?guarded_reading_valid by done; done.
Qed.

Lemma history_cur_temp (cs : list Call) (s : Sys) :
  _cur_temp (obj (history float SWITCH_DOMAIN cs s)) =
  match last (omap (stored_by float (_temperature_entity_id (obj s))) cs) with
  | Some v => Some v
  | None => _cur_temp (obj s)
  end.
Proof.
  revert s. induction cs as [|c cs IH]; intros s; [done|].
  rewrite history_cons, IH, perform_cur_temp.
  pose proof (perform_same_configuration c s) as (_ & _ & _ & _ & _ & -> & _).
  simpl.
  change (list_omap Call pyfloat
            (stored_by float (_temperature_entity_id (obj s))) cs)
    with (omap (stored_by float (_temperature_entity_id (obj s))) cs).
  destruct (stored_by float (_temperature_entity_id (obj s)) c) as [v|]; [|done].
  rewrite last_cons.
  by destruct (last (omap (stored_by float (_temperature_entity_id (obj s))) cs)).
Qed.

Lemma string_app_length (a b : string) :
  String.length (a +:+ b) = String.length a + String.length b.
Proof. induction a as [|c a IH]; simpl; [done|]. by rewrite IH. Qed.

Lemma string_app_inj_r (s a b : string) : a +:+ s = b +:+ s -> a = b.
Proof.
  revert b. induction a as [|c a IH]; intros [|d b] H.
  - done.
  - apply (f_equal String.length) in H.
    rewrite !string_app_length in H. simpl in H. lia.
  - apply (f_equal String.length) in H.
    rewrite !string_app_length in H. simpl in H. lia.
  - change (String c (a +:+ s) = String d (b +:+ s)) in H.
    injection H as -> H. f_equal. by apply IH.
Qed.

(** *** Properties of every sequence of calls *)

(** X10: whatever calls the host makes, in whatever order, the fields
    set from the configuration (name, unique id, bounds, the two entity
    ids) and the context keep the values they had. *)
Theorem X10_calls_never_change_the_configuration (cs : list Call) (s : Sys) :
  same_configuration (obj (history float SWITCH_DOMAIN cs s)) (obj s).
Proof. apply history_same_configuration. Qed.

(** X11: after any sequence of calls on a freshly constructed adapter
    the current temperature is unset or a finite float: never NaN,
    never infinite. *)
Theorem X11_current_temperature_is_never_nan_or_infinite
    (name switch_entity_id temperature_entity_id : string)
    (min_temp max_temp : Z) (unique_id : option string) (cs : list Call) :
  finite_or_unset
    (current_temperature
       (obj (history float SWITCH_DOMAIN cs
               {| obj := __init__ name switch_entity_id temperature_entity_id
                           min_temp max_temp unique_id;
                  out := [] |}))) = true.
Proof. by apply history_cur_temp_finite. Qed.

(** X12: once a temperature is stored, no sequence of calls unsets it:
    an unavailable sensor, a rejected reading or a switch outage leave a
    value in place. *)
Theorem X12_current_temperature_is_never_unset
    (cs : list Call) (s : Sys) (v : pyfloat)
    (Hset : current_temperature (obj s) = Some v) :
  exists w,
    current_temperature (obj (history float SWITCH_DOMAIN cs s)) = Some w.
Proof.
  unfold current_temperature in *.
  apply (history_cur_temp_stays_set cs s). by rewrite Hset.
Qed.

(** X13: over any sequence of calls, the adapter issues exactly one
    service call per command ([async_turn_on], [async_turn_off],
    [async_set_operation_mode]) and none for a callback; every one is a
    blocking [turn_on] or [turn_off] in the switch domain on the
    configured switch entity id. *)
Theorem X13_service_calls_of_a_sequence (cs : list Call) (s : Sys) :
  exists new,
    service_calls (out (history float SWITCH_DOMAIN cs s)) =
      service_calls (out s) ++ new /\
    length new = length (List.filter is_command cs) /\
    Forall (switch_call SWITCH_DOMAIN (obj s)) new.
Proof.
  destruct (history_out cs s) as (new & -> & Hn & Hf & _).
  exists (service_calls new). by rewrite service_calls_app.
Qed.

(** X14: over any sequence of calls, at most one error is logged per
    call that reads the sensor (registration, startup, sensor event);
    the switch listener and the commands never log. *)
Theorem X14_error_logs_of_a_sequence (cs : list Call) (s : Sys) :
  length (error_logs (out (history float SWITCH_DOMAIN cs s))) <=
  length (error_logs (out s)) + length (List.filter reads_sensor cs).
Proof.
  destruct (history_out cs s) as (new & -> & _ & _ & Hl).
  rewrite error_logs_app, length_app. lia.
Qed.


(** X16: the two projections are independent.  The current temperature
    after a sequence of calls is the one after its sensor-reading calls
    alone; the availability and on/off flags are those after its
    listener-running calls alone. *)
Theorem X16_temperature_and_switch_flags_are_independent
    (cs : list Call) (s : Sys) :
  let s' := history float SWITCH_DOMAIN cs s in
  current_temperature (obj s') =
    current_temperature
      (obj (history float SWITCH_DOMAIN (List.filter reads_sensor cs) s)) /\
  _attr_available (obj s') =
    _attr_available
      (obj (history float SWITCH_DOMAIN (List.filter runs_listener cs) s)) /\
  _attr_is_on (obj s') =
    _attr_is_on
      (obj (history float SWITCH_DOMAIN (List.filter runs_listener cs) s)).
Proof.
  cbv zeta. split.
  - by apply history_cur_temp_sensor_only.
  - by apply history_flags_listener_only.
Qed.

(** X17: after any sequence of calls on a freshly constructed adapter,
    the current temperature is the most recent valid reading brought by
    a sensor event, by a startup read or by a registration on a running
    host, and is unset when there was none.  (The builtin [float] gives
    no finite value for "unavailable" and "unknown".) *)
Theorem X17_current_temperature_over_all_entry_points
    (Hunavailable : finite_float float STATE_UNAVAILABLE = None)
    (Hunknown : finite_float float STATE_UNKNOWN = None)
    (name switch_entity_id temperature_entity_id : string)
    (min_temp max_temp : Z) (unique_id : option string) (cs : list Call) :
  current_temperature
    (obj (history float SWITCH_DOMAIN cs
            {| obj := __init__ name switch_entity_id temperature_entity_id
                        min_temp max_temp unique_id;
               out := [] |})) =
  last (omap (call_reading float temperature_entity_id) cs).
Proof.
  unfold current_temperature. rewrite history_cur_temp; cbn [obj __init__
    _temperature_entity_id _cur_temp].
  rewrite (list_omap_ext (stored_by float temperature_entity_id)
             (call_reading float temperature_entity_id) cs cs).
  - by destruct (last _).
  - apply Forall2_same_length_lookup_2; [done|].
    intros i c c' Hc Hc'. simplify_eq.
    by apply stored_by_call_reading.
Qed.

(** *** Platform setup *)

(** X18: entities set up for two switches that the registry knows
    under different unique ids get different unique ids themselves. *)
Theorem X18_setup_keeps_unique_ids_apart
    (registry : gmap string RegistryEntry) (config1 config2 : ConfigType)
    (entry1 entry2 : RegistryEntry)
    (Hentry1 : registry !! conf_switch config1 = Some entry1)
    (Hentry2 : registry !! conf_switch config2 = Some entry2)
    (Hdiff : unique_id entry1 <> unique_id entry2) :
  exists u1 u2,
    map _attr_unique_id (async_setup_platform registry config1) = [Some u1] /\
    map _attr_unique_id (async_setup_platform registry config2) = [Some u2] /\
    u1 <> u2.
Proof.
  unfold async_setup_platform. rewrite Hentry1, Hentry2. simpl.
  eexists _, _. repeat split.
  intros H. by apply string_app_inj_r in H.
Qed.

End HostFacts.

(** ** The further facts at concrete inputs *)

(** X6 at an event whose new state is "abc". *)
Lemma X6_witness :
  _async_sensor_changed float_fragment (sample_event (Some "abc"))
    {| obj := sample_heater 25 100; out := [] |} =
  (Ok tt,
   {| obj := sample_heater 25 100;
      out := [LoggerError "Unable to update from sensor: %s"
                (value_error_message float_fragment "abc");
              AsyncWriteHaState] |}).
Proof.
  apply (X6_rejected_reading_is_logged_then_state_is_written float_fragment
           (sample_event (Some "abc")) (mkState "abc")
           {| obj := sample_heater 25 100; out := [] |}).
  - vm_compute; reflexivity.
  - split; intros [=].
  - reflexivity.
Defined.

(** X9 at a host that is still starting while the sensor reads "42". *)
Lemma X9_witness :
  current_temperature
    (obj (snd (async_added_to_hass float_fragment
                 (sample_hass starting (Some "on") (Some "42"))
                 {| obj := sample_heater 25 100; out := [] |}))) = None.
Proof.
  apply (X9_registration_defers_the_sensor_read float_fragment
           (sample_hass starting (Some "on") (Some "42"))
           {| obj := sample_heater 25 100; out := [] |}).
  reflexivity.
Defined.

(** X12 for a heater that holds 42 and then sees an unavailable
    sensor, a reading of "abc", a switch outage and a registration on a
    host whose sensor reads "nan". *)
Lemma X12_witness :
  exists w,
    current_temperature
      (obj (history float_fragment "switch"
              [call_async_sensor_changed (sample_event (Some "unavailable"));
               call_async_sensor_changed (sample_event (Some "abc"));
               call_async_state_changed_listener (sample_hass running None None);
               call_async_added_to_hass
                 (sample_hass running (Some "on") (Some "nan"))]
              {| obj := set_cur_temp (Some (binary64_of_Z 42))
                          (sample_heater 25 100);
                 out := [] |})) = Some w.
Proof.
  apply (X12_current_temperature_is_never_unset float_fragment "switch"
           [call_async_sensor_changed (sample_event (Some "unavailable"));
            call_async_sensor_changed (sample_event (Some "abc"));
            call_async_state_changed_listener (sample_hass running None None);
            call_async_added_to_hass
              (sample_hass running (Some "on") (Some "nan"))]
           {| obj := set_cur_temp (Some (binary64_of_Z 42))
                       (sample_heater 25 100);
              out := [] |}
           (binary64_of_Z 42)).
  reflexivity.
Defined.

(** X17 at a registration on a starting host whose sensor reads "41",
    the startup read of "42", a sensor event "inf", a command and a
    sensor event "unknown". *)
Lemma X17_witness :
  current_temperature
    (obj (history float_fragment "switch"
            [call_async_added_to_hass
               (sample_hass starting (Some "on") (Some "41"));
             call_async_startup (sample_hass running (Some "on") (Some "42"));
             call_async_sensor_changed (sample_event (Some "inf"));
             call_async_turn_on (sample_hass running (Some "on") (Some "42"));
             call_async_sensor_changed (sample_event (Some "unknown"))]
            {| obj := __init__ "Complex Water Heater" "switch.boiler"
                        "sensor.boiler_temperature" 30 95 None;
               out := [] |})) =
  last (omap (call_reading float_fragment "sensor.boiler_temperature")
          [call_async_added_to_hass
             (sample_hass starting (Some "on") (Some "41"));
           call_async_startup (sample_hass running (Some "on") (Some "42"));
           call_async_sensor_changed (sample_event (Some "inf"));
           call_async_turn_on (sample_hass running (Some "on") (Some "42"));
           call_async_sensor_changed (sample_event (Some "unknown"))]).
Proof.
  apply (X17_current_temperature_over_all_entry_points float_fragment "switch");
    reflexivity.
Defined.

(** X18 for two switches registered as "a1" and "b2". *)
Lemma X18_witness :
  exists u1 u2,
    map _attr_unique_id
      (async_setup_platform
         {[ "switch.boiler" := mkRegistryEntry "a1";
            "switch.kettle" := mkRegistryEntry "b2" ]}
         (mkConfig "Boiler" "switch.boiler" "sensor.boiler_temperature" 25 100))
    = [Some u1] /\
    map _attr_unique_id
      (async_setup_platform
         {[ "switch.boiler" := mkRegistryEntry "a1";
            "switch.kettle" := mkRegistryEntry "b2" ]}
         (mkConfig "Kettle" "switch.kettle" "sensor.kettle_temperature" 25 100))
    = [Some u2] /\
    u1 <> u2.
Proof.
  apply (X18_setup_keeps_unique_ids_apart
           {[ "switch.boiler" := mkRegistryEntry "a1";
              "switch.kettle" := mkRegistryEntry "b2" ]}
           (mkConfig "Boiler" "switch.boiler" "sensor.boiler_temperature" 25 100)
           (mkConfig "Kettle" "switch.kettle" "sensor.kettle_temperature" 25 100)
           (mkRegistryEntry "a1") (mkRegistryEntry "b2")).
  - vm_compute; reflexivity.
  - vm_compute; reflexivity.
  - intros [=].
Defined.
